(** * Monitor JulgadosBR: the probe, the notifier and the monitoring loop

    A shallow embedding of [monitor_api.py].  Python dictionaries with a fixed
    set of keys are records, the status strings ["online"], ["error"] and
    ["offline"] are an enumeration, the global [service_status] dictionary is
    a finite map, and the two HTTP calls are parameters that either answer
    with a status code or raise.  Calls to [print] write to the console only
    and are left out. *)

From stdpp Require Import gmap strings list pretty.
From Stdlib Require Import ZArith Lia.

Open Scope Z_scope.
Open Scope string_scope.

(** ** Python exceptions and results *)

(** The class of a raised exception, as far as the handlers of this program
    tell classes apart.  [TimeoutException] and [ConnectError] stand for the
    [httpx] classes and their subclasses, [OtherException] for every other
    subclass of [Exception], and [NonException] for what derives from
    [BaseException] only (KeyboardInterrupt, SystemExit, task cancellation). *)
Inductive exc_class : Type :=
| TimeoutException
| ConnectError
| OtherException
| NonException.

(** A raised exception: its class and what [str(e)] gives. *)
Record pyexc : Type := PyExc { exc_cls : exc_class; exc_str : string }.

(** [isinstance(e, Exception)]. *)
Definition is_Exception (e : pyexc) : bool :=
  match exc_cls e with
  | NonException => false
  | _ => true
  end.

(** The result of running a coroutine: it returns or it raises. *)
Inductive outcome (A : Type) : Type :=
| Return (a : A)
| Raise (e : pyexc).
Arguments Return {A} a.
Arguments Raise {A} e.

Global Instance outcome_ret : MRet outcome := fun A a => Return a.

Global Instance outcome_bind : MBind outcome := fun A B k m =>
  match m with
  | Return a => k a
  | Raise e => Raise e
  end.

(** What an HTTP call does: the server answers with a status code and a body,
    or the client raises. *)
Inductive http_outcome : Type :=
| Responded (status_code : Z) (text : string)
| Failed (e : pyexc).

(** ** Data *)

(** The three values of the ["status"] key. *)
Inductive status : Type :=
| online
| error
| offline.

Global Instance status_eq_dec : EqDecision status.
Proof. solve_decision. Defined.

Definition status_str (s : status) : string :=
  match s with
  | online => "online"
  | error => "error"
  | offline => "offline"
  end.

(** [status.upper()] *)
Definition status_upper (s : status) : string :=
  match s with
  | online => "ONLINE"
  | error => "ERROR"
  | offline => "OFFLINE"
  end.

(** An entry of [SERVICES]. *)
Record ServiceConfig : Type := {
  name : string;
  url : string;
  interval : Z
}.

(** The dictionary [check_service] returns.  [response_time] is the
    difference of two clock readings. *)
Record ProbeResult : Type := {
  status_of : status;
  response_time : Z;
  error_message : string
}.

(** An entry of [service_status]. *)
Record ServiceStatus : Type := {
  ss_name : string;
  ss_url : string;
  ss_status : status;
  ss_last_check : string;
  ss_response_time : Z;
  ss_error_message : string
}.

(** The environment settings read when the module is loaded. *)
Record Settings : Type := {
  EVOLUTION_API_URL : string;
  EVOLUTION_INSTANCE : string;
  EVOLUTION_API_KEY : string;
  WHATSAPP_PHONE : string
}.

Definition SERVICES : gmap string ServiceConfig :=
  list_to_map
    [ ("frontend_dev",
       {| name := "Frontend Dev";
          url := "https://dev.julgadosbr.com.br/health";
          interval := 60 |});
      ("frontend_prod",
       {| name := "Frontend Prod";
          url := "https://julgadosbr.com.br/health";
          interval := 60 |});
      ("backend",
       {| name := "Backend API";
          url := "https://api.dev.julgadosbr.com.br/health";
          interval := 60 |}) ].

(** ** The probe *)

(** [check_service].  [start_time] is the clock reading before the attempt,
    [get] is the behaviour of [client.get] and [end_time] the one clock
    reading taken afterwards, in the branch or handler that runs. *)
Definition check_service (service_id : string) (config : ServiceConfig)
    (start_time : Z) (get : string -> http_outcome) (end_time : Z)
  : outcome ProbeResult :=
  let response_time := end_time - start_time in
  match get (url config) with
  | Responded status_code _ =>
      if bool_decide (status_code = 200) then
        Return {| status_of := online;
                  response_time := response_time;
                  error_message := "" |}
      else
        Return {| status_of := error;
                  response_time := response_time;
                  error_message := "HTTP " +:+ pretty status_code |}
  | Failed e =>
      match exc_cls e with
      | TimeoutException =>
          Return {| status_of := offline;
                    response_time := response_time;
                    error_message := "Timeout - Serviço não respondeu" |}
      | ConnectError =>
          Return {| status_of := offline;
                    response_time := response_time;
                    error_message := "Erro de conexão - Serviço offline" |}
      | OtherException =>
          Return {| status_of := offline;
                    response_time := response_time;
                    error_message := "Erro: " +:+ exc_str e |}
      | NonException => Raise e
      end
  end.

(** ** The notifier *)

(** The POST request [send_whatsapp_evolution] builds. *)
Record PostRequest : Type := {
  post_url : string;
  post_number : string;
  post_text : string;
  post_apikey : string
}.

(** Truth value of a Python string: the empty string is false. *)
Definition truthy (s : string) : bool := negb (bool_decide (s = "")).

(** The url, payload and headers built at lines 104 to 114. *)
Definition evolution_request (cfg : Settings) (message : string) : PostRequest :=
  let url :=
    EVOLUTION_API_URL cfg +:+ "/message/sendText/" +:+ EVOLUTION_INSTANCE cfg in
  {| post_url := url;
     post_number := WHATSAPP_PHONE cfg;
     post_text := message;
     post_apikey := EVOLUTION_API_KEY cfg |}.

(** [send_whatsapp_evolution].  [post] is the behaviour of [client.post]. *)
Definition send_whatsapp_evolution (cfg : Settings)
    (post : PostRequest -> http_outcome) (message : string) : outcome bool :=
  if negb (truthy (EVOLUTION_API_URL cfg))
     || negb (truthy (EVOLUTION_API_KEY cfg))
     || negb (truthy (WHATSAPP_PHONE cfg))
  then Return false
  else
    match post (evolution_request cfg message) with
    | Responded status_code _ =>
        if bool_decide (status_code = 201) || bool_decide (status_code = 200)
        then Return true
        else Return false
    | Failed e => if is_Exception e then Return false else Raise e
    end.

Definition newline : string := String (Ascii.ascii_of_nat 10) "".

(** The text [send_whatsapp_alert] formats; [timestamp] is the formatted
    clock reading. *)
Definition alert_message (service_name : string) (st : status) (err : string)
    (timestamp : string) : string :=
  let emoji :=
    if bool_decide (st = offline) then "🔴"
    else if bool_decide (st = error) then "⚠️" else "✅" in
  let message :=
    emoji +:+ " *Alerta JulgadosBR*" +:+ newline +:+ newline
    +:+ "*Serviço:* " +:+ service_name +:+ newline
    +:+ "*Status:* " +:+ status_upper st +:+ newline
    +:+ "*Data/Hora:* " +:+ timestamp in
  if truthy err then message +:+ newline +:+ "*Erro:* " +:+ err else message.

(** [send_whatsapp_alert]: the boolean of the delivery is dropped. *)
Definition send_whatsapp_alert (cfg : Settings)
    (post : PostRequest -> http_outcome) (timestamp : string)
    (service_name : string) (st : status) (err : string) : outcome unit :=
  _ ← send_whatsapp_evolution cfg post (alert_message service_name st err timestamp);
  mret tt.

(** Settings with every credential present. *)
Definition example_settings : Settings :=
  {| EVOLUTION_API_URL := "http://evolution.local";
     EVOLUTION_INSTANCE := "monitor-julgados-2";
     EVOLUTION_API_KEY := "key";
     WHATSAPP_PHONE := "5511999990000" |}.

(** ** The monitoring loop *)

(** The two local variables of [monitor_service]. *)
Record debounce : Type := {
  previous_status : status;
  consecutive_failures : nat
}.

Definition initial_debounce : debounce :=
  {| previous_status := online; consecutive_failures := 0 |}.

(** What one cycle is fed: the dictionary the probe returned and the
    formatted clock reading stored as ["last_check"]. *)
Record Reading : Type := {
  result : ProbeResult;
  checked_at : string
}.

(** The calls a cycle makes besides the probe: [send_whatsapp_alert] with its
    three arguments, and the sleep that ends the cycle. *)
Inductive call : Type :=
| Alert (service_name : string) (st : status) (err : string)
| Sleep (seconds : Z).

Record cycle_end : Type := {
  locals : debounce;
  registry : gmap string ServiceStatus;
  calls : list call
}.

(** The guard of the alert after two failures, on the count already
    incremented. *)
Definition down_guard (consecutive_failures : nat) (previous_status : status) : bool :=
  bool_decide (consecutive_failures = 2%nat) && bool_decide (previous_status = online).

(** The guard of the recovery alert. *)
Definition recovery_guard (consecutive_failures : nat) (previous_status : status) : bool :=
  bool_decide (previous_status ≠ online) && bool_decide (2 ≤ consecutive_failures)%nat.

(** The body of the [while True] loop of [monitor_service], after the probe
    has returned [result]. *)
Definition monitor_cycle (service_id : string) (config : ServiceConfig)
    (st : debounce) (service_status : gmap string ServiceStatus) (r : Reading)
  : cycle_end :=
  let current_status := status_of (result r) in
  let service_status :=
    <[service_id := {| ss_name := name config;
                       ss_url := url config;
                       ss_status := current_status;
                       ss_last_check := checked_at r;
                       ss_response_time := response_time (result r);
                       ss_error_message := error_message (result r) |}]>
      service_status in
  let '(consecutive_failures, alerts) :=
    if bool_decide (current_status ≠ online) then
      let consecutive_failures := S (consecutive_failures st) in
      (consecutive_failures,
       if down_guard consecutive_failures (previous_status st)
       then [Alert (name config) current_status (error_message (result r))]
       else [])
    else
      (0%nat,
       if recovery_guard (consecutive_failures st) (previous_status st)
       then [Alert (name config) online "Serviço recuperado ✅"]
       else []) in
  {| locals := {| previous_status := current_status;
                  consecutive_failures := consecutive_failures |};
     registry := service_status;
     calls := alerts ++ [Sleep (interval config)] |}.

(** The loop run for as many cycles as there are readings: the calls of each
    cycle in order, the local variables and the registry at the end. *)
Fixpoint monitor_loop (service_id : string) (config : ServiceConfig)
    (readings : list Reading) (st : debounce)
    (service_status : gmap string ServiceStatus)
  : list (list call) * debounce * gmap string ServiceStatus :=
  match readings with
  | [] => ([], st, service_status)
  | r :: rest =>
      let c := monitor_cycle service_id config st service_status r in
      let '(trace, st', service_status') :=
        monitor_loop service_id config rest (locals c) (registry c) in
      (calls c :: trace, st', service_status')
  end.

(** [monitor_service]: the loop entered with its initial local variables. *)
Definition monitor_service (service_id : string) (config : ServiceConfig)
    (readings : list Reading) (service_status : gmap string ServiceStatus)
  : list (list call) * debounce * gmap string ServiceStatus :=
  monitor_loop service_id config readings initial_debounce service_status.

(** ** Observing a run *)

(** The call at line 180 passes the status just read, which is not
    ["online"] there; the call at line 189 passes ["online"]. *)
Definition is_down_alert (c : call) : bool :=
  match c with
  | Alert _ st _ => bool_decide (st ≠ online)
  | Sleep _ => false
  end.

Definition is_recovery_alert (c : call) : bool :=
  match c with
  | Alert _ st _ => bool_decide (st = online)
  | Sleep _ => false
  end.

Definition trace_of (run : list (list call) * debounce * gmap string ServiceStatus)
  : list (list call) := run.1.1.

Definition locals_of (run : list (list call) * debounce * gmap string ServiceStatus)
  : debounce := run.1.2.

Definition registry_of (run : list (list call) * debounce * gmap string ServiceStatus)
  : gmap string ServiceStatus := run.2.

(** Is a down alert sent in cycle [i] (counted from 0) of the trace? *)
Definition down_alert_at (trace : list (list call)) (i : nat) : bool :=
  match trace !! i with
  | Some cs => existsb is_down_alert cs
  | None => false
  end.

Definition recovery_alert_at (trace : list (list call)) (i : nat) : bool :=
  match trace !! i with
  | Some cs => existsb is_recovery_alert cs
  | None => false
  end.

Definition count_down_alerts (trace : list (list call)) : nat :=
  length (filter (fun c => is_down_alert c = true) (concat trace)).

Definition count_recovery_alerts (trace : list (list call)) : nat :=
  length (filter (fun c => is_recovery_alert c = true) (concat trace)).

(** A reading with the given status and nothing else of interest. *)
Definition reading_of (st : status) : Reading :=
  {| result := {| status_of := st; response_time := 0; error_message := "" |};
     checked_at := "" |}.

Definition statuses_of (readings : list Reading) : list status :=
  map (fun r => status_of (result r)) readings.

Definition online_at (statuses : list status) (i : nat) : bool :=
  match statuses !! i with
  | Some st => bool_decide (st = online)
  | None => false
  end.

Definition non_online_at (statuses : list status) (i : nat) : bool :=
  match statuses !! i with
  | Some st => bool_decide (st ≠ online)
  | None => false
  end.

(** The condition under which the specification expects the down alert, in
    its words: reading [i] is the second consecutive non-online reading after
    an Online status, that is, readings [i-1] and [i] are not Online and the
    status before them is Online (the reading [i-2], or the initial status
    when the run starts with the two failures). *)
Definition second_failure_after_online (statuses : list status) (i : nat) : bool :=
  match i with
  | O => false
  | S j =>
      non_online_at statuses j && non_online_at statuses (S j)
      && match j with
         | O => true
         | S k => online_at statuses k
         end
  end.

(** What relates the two local variables of the loop at the start of every
    cycle: the previous status is ["online"] exactly when no failure is being
    counted. *)
Definition debounce_inv (st : debounce) : Prop :=
  previous_status st = online <-> consecutive_failures st = 0%nat.

(** A reading with a given status, elapsed time, detail and time stamp. *)
Definition mk_reading (st : status) (elapsed : Z) (detail stamp : string) : Reading :=
  {| result := {| status_of := st; response_time := elapsed;
                  error_message := detail |};
     checked_at := stamp |}.

(** ** The application: registry, monitor tasks and the manual check *)

(** What the running process holds: the global [service_status] and, for each
    task started by [startup_event], the local variables of its loop. *)
Record app_state : Type := {
  service_status : gmap string ServiceStatus;
  monitors : gmap string debounce
}.

(** [startup_event]: one task per entry of [SERVICES], nothing observed yet. *)
Definition startup_event : app_state :=
  {| service_status := ∅;
     monitors := (fun _ => initial_debounce) <$> SERVICES |}.

(** One cycle of the task of [service_id], on the application state. *)
Definition task_cycle (service_id : string) (config : ServiceConfig)
    (r : Reading) (s : app_state) : list call * app_state :=
  match monitors s !! service_id with
  | None => ([], s)
  | Some st =>
      let c := monitor_cycle service_id config st (service_status s) r in
      (calls c,
       {| service_status := registry c;
          monitors := <[service_id := locals c]> (monitors s) |})
  end.

(** What the handler of [POST /check/{service_id}] answers. *)
Inductive reply : Type :=
| JSONResponse (status_code : Z) (error_text : string)
| CheckReply (service : string) (probe : ProbeResult).

(** [force_check], on the application state. *)
Definition force_check (service_id : string) (start_time : Z)
    (get : string -> http_outcome) (end_time : Z) (s : app_state)
  : outcome reply * app_state :=
  match SERVICES !! service_id with
  | None => (Return (JSONResponse 404 "Serviço não encontrado"), s)
  | Some config =>
      (r ← check_service service_id config start_time get end_time;
       mret (CheckReply (name config) r),
       s)
  end.

(** ** More observers and the remaining handlers *)

(** The number of statuses other than ["online"] at the head of a list. *)
Fixpoint leading_failures (statuses : list status) : nat :=
  match statuses with
  | [] => 0%nat
  | st :: rest =>
      if bool_decide (st ≠ online) then S (leading_failures rest) else 0%nat
  end.

(** The number of statuses other than ["online"] at the end of a list. *)
Definition trailing_failures (statuses : list status) : nat :=
  leading_failures (reverse statuses).

(** The dictionary lines 160 to 167 store for a reading. *)
Definition entry_of (config : ServiceConfig) (r : Reading) : ServiceStatus :=
  {| ss_name := name config;
     ss_url := url config;
     ss_status := status_of (result r);
     ss_last_check := checked_at r;
     ss_response_time := response_time (result r);
     ss_error_message := error_message (result r) |}.


(** [get_status]: the formatted clock reading and the registry as it is. *)
Definition get_status (timestamp : string) (s : app_state)
  : string * gmap string ServiceStatus :=
  (timestamp, service_status s).

(** The dictionary [test_alert] returns. *)
Record TestAlertReply : Type := {
  ta_message : string;
  ta_success : bool;
  ta_phone : string
}.

Definition test_alert_text : string :=
  "🧪 *Teste de Notificação*" +:+ newline +:+ newline
  +:+ "Se você recebeu esta mensagem, o sistema de alertas está funcionando! ✅".

(** [test_alert] *)
Definition test_alert (cfg : Settings) (post : PostRequest -> http_outcome)
  : outcome TestAlertReply :=
  success ← send_whatsapp_evolution cfg post test_alert_text;
  mret {| ta_message := "Teste enviado";
          ta_success := success;
          ta_phone := WHATSAPP_PHONE cfg |}.




(** * Properties *)

(** The enumeration is faithful to the strings: comparing two statuses is
    comparing the strings they stand for. *)
Lemma status_str_inj (s1 s2 : status) : status_str s1 = status_str s2 -> s1 = s2.
Proof. destruct s1, s2; (reflexivity || discriminate). Qed.

(** ** The probe *)

Example check_service_404 :
  check_service "backend" {| name := "Backend API"; url := "u"; interval := 60 |}
    10 (fun _ => Responded 404 "") 17
  = Return {| status_of := error; response_time := 7; error_message := "HTTP 404" |}.
Proof. reflexivity. Qed.

Example check_service_204 :
  check_service "backend" {| name := "Backend API"; url := "u"; interval := 60 |}
    0 (fun _ => Responded 204 "") 3
  = Return {| status_of := error; response_time := 3; error_message := "HTTP 204" |}.
Proof. reflexivity. Qed.

Example force_check_unknown s :
  force_check "nope" 0 (fun _ => Responded 200 "") 1 s
  = (Return (JSONResponse 404 "Serviço não encontrado"), s).
Proof. reflexivity. Qed.

Example force_check_backend s :
  force_check "backend" 0 (fun _ => Responded 200 "") 1 s
  = (Return (CheckReply "Backend API"
       {| status_of := online; response_time := 1; error_message := "" |}), s).
Proof. reflexivity. Qed.

(** The detail of a non-200 answer determines the status code. *)
Lemma http_detail_inj (code code' : Z) :
  "HTTP " +:+ pretty code = "HTTP " +:+ pretty code' -> code = code'.
Proof.
  intros H. apply (inj (String.app "HTTP ")) in H.
  by apply (inj pretty) in H.
Qed.

(** C6: an answered probe is classified online if and only if the status code
    is exactly 200; any other code gives the classification error, whose
    detail is ["HTTP "] followed by the status code in decimal. *)
Theorem check_service_online_iff_200
    (service_id : string) (config : ServiceConfig) (start_time end_time : Z)
    (get : string -> http_outcome) (code : Z) (text : string) :
  get (url config) = Responded code text ->
  exists r,
    check_service service_id config start_time get end_time = Return r
    /\ (status_of r = online <-> code = 200)
    /\ (code <> 200 ->
        status_of r = error /\ error_message r = "HTTP " +:+ pretty code).
Proof.
  intros Hget. unfold check_service. rewrite Hget.
  case_bool_decide as Hcode; eexists; (split; [reflexivity|]); simpl.
  - split; [tauto | intros Hne; contradiction].
  - split; [split; [discriminate | intros ->; contradiction] | auto].
Qed.

Lemma check_service_online_iff_200_witness :
  exists r,
    check_service "backend"
      {| name := "Backend API"; url := "https://api.dev.julgadosbr.com.br/health";
         interval := 60 |}
      0 (fun _ => Responded 204 "") 3 = Return r
    /\ (status_of r = online <-> 204 = 200)
    /\ (204 <> 200 ->
        status_of r = error /\ error_message r = "HTTP " +:+ pretty 204).
Proof.
  apply (check_service_online_iff_200 _ _ _ _ _ 204 ""). reflexivity.
Defined.

(** C7: when the attempt fails with an exception (a timeout, a connection
    error or any other [Exception]), the probe returns a result instead of
    raising; the result is classified offline, its detail tells a timeout
    from a connection error and carries the exception text in the remaining
    case, and the elapsed time is filled in, as it is when the server
    answers. *)
Theorem check_service_never_raises
    (service_id : string) (config : ServiceConfig) (start_time end_time : Z)
    (get : string -> http_outcome) :
  (forall e, get (url config) = Failed e -> is_Exception e = true) ->
  exists r,
    check_service service_id config start_time get end_time = Return r
    /\ response_time r = end_time - start_time
    /\ (forall e, get (url config) = Failed e ->
        status_of r = offline
        /\ error_message r <> ""
        /\ (exc_cls e = TimeoutException ->
            error_message r = "Timeout - Serviço não respondeu")
        /\ (exc_cls e = ConnectError ->
            error_message r = "Erro de conexão - Serviço offline")
        /\ (exc_cls e = OtherException ->
            error_message r = "Erro: " +:+ exc_str e)
        /\ (exc_cls e = TimeoutException \/ exc_cls e = ConnectError
            \/ exc_cls e = OtherException)).
Proof.
  intros Hexc. unfold check_service.
  destruct (get (url config)) as [code text | e] eqn:Hget.
  - case_bool_decide; eexists; (split; [reflexivity|]);
      (split; [reflexivity | intros e He; discriminate]).
  - specialize (Hexc e eq_refl). unfold is_Exception in Hexc.
    destruct (exc_cls e) eqn:Hcls; try discriminate;
      eexists; (split; [reflexivity|]); (split; [reflexivity|]);
      intros e' [= <-]; rewrite Hcls; simpl;
      repeat split; try discriminate; auto.
Qed.

Lemma check_service_never_raises_witness :
  exists r,
    check_service "backend"
      {| name := "Backend API"; url := "https://api.dev.julgadosbr.com.br/health";
         interval := 60 |}
      5 (fun _ => Failed (PyExc OtherException "boom")) 9 = Return r
    /\ response_time r = 9 - 5
    /\ (forall e, Failed (PyExc OtherException "boom") = Failed e ->
        status_of r = offline
        /\ error_message r <> ""
        /\ (exc_cls e = TimeoutException ->
            error_message r = "Timeout - Serviço não respondeu")
        /\ (exc_cls e = ConnectError ->
            error_message r = "Erro de conexão - Serviço offline")
        /\ (exc_cls e = OtherException ->
            error_message r = "Erro: " +:+ exc_str e)
        /\ (exc_cls e = TimeoutException \/ exc_cls e = ConnectError
            \/ exc_cls e = OtherException)).
Proof.
  apply (check_service_never_raises "backend"
           {| name := "Backend API";
              url := "https://api.dev.julgadosbr.com.br/health";
              interval := 60 |}
           5 9 (fun _ => Failed (PyExc OtherException "boom"))).
  intros e [= <-]. reflexivity.
Defined.

(** The timeout detail and the connection-error detail are different texts. *)
Lemma timeout_detail_differs (service_id : string) (config : ServiceConfig)
    (t0 t1 t0' t1' : Z) (s s' : string) (r r' : ProbeResult) :
  check_service service_id config t0
    (fun _ => Failed (PyExc TimeoutException s)) t1 = Return r ->
  check_service service_id config t0'
    (fun _ => Failed (PyExc ConnectError s')) t1' = Return r' ->
  error_message r <> error_message r'.
Proof. intros [= <-] [= <-]. discriminate. Qed.

(** What [except Exception] leaves alone is raised again by the probe. *)
Lemma check_service_propagates_non_exception
    (service_id : string) (config : ServiceConfig) (t0 t1 : Z)
    (get : string -> http_outcome) (e : pyexc) :
  get (url config) = Failed e -> is_Exception e = false ->
  check_service service_id config t0 get t1 = Raise e.
Proof.
  intros Hget He. unfold check_service. rewrite Hget.
  unfold is_Exception in He. by destruct (exc_cls e).
Qed.

(** ** The notifier *)

(** C9: [send_whatsapp_evolution] returns a boolean and does not raise: with
    a credential missing it returns false without posting, and with all three
    present it returns false when the POST raises an exception or is answered
    with a code other than 200 and 201, and true only for those two codes. *)
Theorem send_whatsapp_evolution_never_raises
    (cfg : Settings) (post : PostRequest -> http_outcome) (message : string) :
  (forall e, post (evolution_request cfg message) = Failed e ->
             is_Exception e = true) ->
  exists b : bool,
    send_whatsapp_evolution cfg post message = Return b
    /\ (EVOLUTION_API_URL cfg = "" \/ EVOLUTION_API_KEY cfg = ""
        \/ WHATSAPP_PHONE cfg = "" -> b = false)
    /\ (forall e, post (evolution_request cfg message) = Failed e -> b = false)
    /\ (forall code text,
          post (evolution_request cfg message) = Responded code text ->
          code <> 200 -> code <> 201 -> b = false)
    /\ (b = true ->
        EVOLUTION_API_URL cfg <> "" /\ EVOLUTION_API_KEY cfg <> ""
        /\ WHATSAPP_PHONE cfg <> ""
        /\ exists code text,
             post (evolution_request cfg message) = Responded code text
             /\ (code = 201 \/ code = 200)).
Proof.
  intros Hexc. unfold send_whatsapp_evolution, truthy.
  repeat case_bool_decide; simpl;
    try (exists false; split; [reflexivity|];
         repeat split; auto; discriminate).
  destruct (post (evolution_request cfg message)) as [code text | e] eqn:Hpost.
  - repeat case_bool_decide; simpl.
    all: eexists; (split; [reflexivity|]).
    all: repeat split; try done; try (intros; simplify_eq; done);
      try (intros [?|[?|?]]; done); eauto 6.
  - rewrite (Hexc e eq_refl). exists false. split; [reflexivity|].
    repeat split; auto; discriminate.
Qed.

Lemma send_whatsapp_evolution_never_raises_witness :
  exists b : bool,
    send_whatsapp_evolution example_settings
      (fun _ => Failed (PyExc ConnectError "refused")) "alerta" = Return b
    /\ (EVOLUTION_API_URL example_settings = ""
        \/ EVOLUTION_API_KEY example_settings = ""
        \/ WHATSAPP_PHONE example_settings = "" -> b = false)
    /\ (forall e, Failed (PyExc ConnectError "refused") = Failed e -> b = false)
    /\ (forall code text,
          Failed (PyExc ConnectError "refused") = Responded code text ->
          code <> 200 -> code <> 201 -> b = false)
    /\ (b = true ->
        EVOLUTION_API_URL example_settings <> ""
        /\ EVOLUTION_API_KEY example_settings <> ""
        /\ WHATSAPP_PHONE example_settings <> ""
        /\ exists code text,
             Failed (PyExc ConnectError "refused") = Responded code text
             /\ (code = 201 \/ code = 200)).
Proof.
  apply (send_whatsapp_evolution_never_raises example_settings
           (fun _ => Failed (PyExc ConnectError "refused")) "alerta").
  intros e [= <-]. reflexivity.
Defined.

Example send_whatsapp_evolution_500 :
  send_whatsapp_evolution example_settings (fun _ => Responded 500 "oops") "alerta"
  = Return false.
Proof. reflexivity. Qed.

Example send_whatsapp_evolution_201 :
  send_whatsapp_evolution example_settings (fun _ => Responded 201 "") "alerta"
  = Return true.
Proof. reflexivity. Qed.

(** With no credential the notifier does not post at all: whatever the
    transport would do, the result is false. *)
Lemma send_whatsapp_evolution_unconfigured
    (cfg : Settings) (post : PostRequest -> http_outcome) (message : string) :
  EVOLUTION_API_URL cfg = "" \/ EVOLUTION_API_KEY cfg = ""
  \/ WHATSAPP_PHONE cfg = "" ->
  send_whatsapp_evolution cfg post message = Return false.
Proof.
  intros H. unfold send_whatsapp_evolution, truthy.
  repeat case_bool_decide; simpl; try reflexivity.
  destruct H as [?|[?|?]]; contradiction.
Qed.

(** X6: The alert call returns to the loop whatever the delivery did. *)
Lemma send_whatsapp_alert_returns
    (cfg : Settings) (post : PostRequest -> http_outcome)
    (timestamp service_name : string) (st : status) (err : string) :
  (forall req e, post req = Failed e -> is_Exception e = true) ->
  send_whatsapp_alert cfg post timestamp service_name st err = Return tt.
Proof.
  intros Hexc. unfold send_whatsapp_alert, send_whatsapp_evolution.
  destruct (_ || _); [reflexivity|].
  destruct (post _) as [code text | e] eqn:Hpost.
  - by destruct (_ || _).
  - by rewrite (Hexc _ _ Hpost).
Qed.

(** ** The monitoring loop *)

Example run_single_failure :
  trace_of (monitor_service "backend"
              {| name := "Backend API"; url := "u"; interval := 60 |}
              (map reading_of [online; offline; online]) ∅)
  = [[Sleep 60]; [Sleep 60]; [Sleep 60]].
Proof. reflexivity. Qed.

Example run_outage :
  trace_of (monitor_service "backend"
              {| name := "Backend API"; url := "u"; interval := 60 |}
              (map reading_of [offline; error; offline; online; online]) ∅)
  = [[Sleep 60]; [Sleep 60]; [Sleep 60];
     [Alert "Backend API" online "Serviço recuperado ✅"; Sleep 60];
     [Sleep 60]].
Proof. reflexivity. Qed.

(** C5: a cycle leaves the failure count at 0 exactly when its reading is
    online; a reading that is not online increments the count by one. *)
Theorem consecutive_failures_reset_iff_online
    (service_id : string) (config : ServiceConfig) (st : debounce)
    (reg : gmap string ServiceStatus) (r : Reading) :
  (consecutive_failures (locals (monitor_cycle service_id config st reg r)) = 0%nat
   <-> status_of (result r) = online)
  /\ (status_of (result r) = online ->
      consecutive_failures (locals (monitor_cycle service_id config st reg r)) = 0%nat)
  /\ (status_of (result r) <> online ->
      consecutive_failures (locals (monitor_cycle service_id config st reg r))
      = S (consecutive_failures st)).
Proof.
  unfold monitor_cycle. case_bool_decide as Hst; simpl.
  - repeat split; done.
  - assert (status_of (result r) = online) by (by destruct (status_of (result r))).
    repeat split; try done.
Qed.

(** *** The invariant of the two local variables *)

Lemma initial_debounce_inv : debounce_inv initial_debounce.
Proof. by split. Qed.

(** Every cycle ends with the previous status and the count in step, whatever
    they were before: line 196 stores the status that lines 174 to 194 have
    just counted. *)
Lemma monitor_cycle_inv (service_id : string) (config : ServiceConfig)
    (st : debounce) (reg : gmap string ServiceStatus) (r : Reading) :
  debounce_inv (locals (monitor_cycle service_id config st reg r)).
Proof.
  unfold debounce_inv, monitor_cycle. case_bool_decide as Hst; simpl.
  - split; [intros ?; contradiction | discriminate].
  - split; [reflexivity | intros _].
    by destruct (status_of (result r)).
Qed.

(** Under the invariant the guard of line 178 is false: a count of 2 after
    the increment means a count of 1 before it, hence a previous status that
    is not ["online"]. *)
Lemma down_guard_unsat (st : debounce) :
  debounce_inv st ->
  down_guard (S (consecutive_failures st)) (previous_status st) = false.
Proof.
  intros [Hinv _]. unfold down_guard.
  destruct (decide (previous_status st = online)) as [Hprev|Hprev].
  - rewrite (Hinv Hprev). reflexivity.
  - rewrite (bool_decide_eq_false_2 _ Hprev). apply andb_false_r.
Qed.

Lemma monitor_cycle_no_down_alert (service_id : string) (config : ServiceConfig)
    (st : debounce) (reg : gmap string ServiceStatus) (r : Reading) :
  debounce_inv st ->
  existsb is_down_alert (calls (monitor_cycle service_id config st reg r)) = false.
Proof.
  intros Hinv. unfold monitor_cycle. case_bool_decide as Hst; simpl.
  - by rewrite (down_guard_unsat st Hinv).
  - destruct (recovery_guard _ _); reflexivity.
Qed.

Lemma monitor_loop_cons (service_id : string) (config : ServiceConfig)
    (r : Reading) (rest : list Reading) (st : debounce)
    (reg : gmap string ServiceStatus) :
  monitor_loop service_id config (r :: rest) st reg
  = let c := monitor_cycle service_id config st reg r in
    let run := monitor_loop service_id config rest (locals c) (registry c) in
    (calls c :: trace_of run, locals_of run, registry_of run).
Proof.
  cbn [monitor_loop]. cbv zeta.
  by destruct (monitor_loop _ _ rest _ _) as [[trace st'] reg'].
Qed.

Lemma monitor_loop_inv (service_id : string) (config : ServiceConfig)
    (readings : list Reading) (st : debounce) (reg : gmap string ServiceStatus) :
  debounce_inv st ->
  debounce_inv (locals_of (monitor_loop service_id config readings st reg)).
Proof.
  revert st reg. induction readings as [|r rest IH]; intros st reg Hinv.
  - exact Hinv.
  - rewrite monitor_loop_cons. apply IH, monitor_cycle_inv.
Qed.

Lemma monitor_loop_no_down_alert (service_id : string) (config : ServiceConfig)
    (readings : list Reading) (st : debounce) (reg : gmap string ServiceStatus) :
  debounce_inv st ->
  Forall (fun cs => existsb is_down_alert cs = false)
    (trace_of (monitor_loop service_id config readings st reg)).
Proof.
  revert st reg. induction readings as [|r rest IH]; intros st reg Hinv.
  - constructor.
  - rewrite monitor_loop_cons. constructor.
    + by apply monitor_cycle_no_down_alert.
    + apply IH, monitor_cycle_inv.
Qed.

Lemma filter_existsb_false {A : Type} (f : A -> bool) (l : list A) :
  existsb f l = false -> filter (fun x => f x = true) l = [].
Proof.
  induction l as [|x l IH]; [done|]. simpl.
  intros [Hx Hl]%orb_false_elim.
  rewrite filter_cons_False; [by apply IH | by rewrite Hx].
Qed.

Lemma count_none {A : Type} (f : A -> bool) (trace : list (list A)) :
  Forall (fun cs => existsb f cs = false) trace ->
  filter (fun x => f x = true) (concat trace) = [].
Proof.
  induction 1 as [|cs trace Hcs _ IH]; [done|].
  simpl. by rewrite filter_app, (filter_existsb_false f cs Hcs), IH.
Qed.

(** C4: whatever the readings, [monitor_service] sends no down alert, in no
    cycle; at the start of every cycle the two local variables are in step,
    so the guard of the alert is false on the incremented count. *)
Theorem monitor_service_never_sends_down_alert
    (service_id : string) (config : ServiceConfig) (readings : list Reading)
    (reg : gmap string ServiceStatus) :
  (forall i,
     down_alert_at (trace_of (monitor_service service_id config readings reg)) i
     = false)
  /\ count_down_alerts (trace_of (monitor_service service_id config readings reg))
     = 0%nat
  /\ (forall n,
        debounce_inv
          (locals_of (monitor_service service_id config (take n readings) reg))
        /\ down_guard
             (S (consecutive_failures
                   (locals_of (monitor_service service_id config
                                 (take n readings) reg))))
             (previous_status
                (locals_of (monitor_service service_id config
                              (take n readings) reg)))
           = false).
Proof.
  unfold monitor_service.
  pose proof (monitor_loop_no_down_alert service_id config readings
                initial_debounce reg initial_debounce_inv) as Hall.
  split; [|split].
  - intros i. unfold down_alert_at.
    destruct (_ !! i) as [cs|] eqn:Hi; [|done].
    by apply (Forall_lookup_1 _ _ _ _ Hall Hi).
  - unfold count_down_alerts. by rewrite (count_none _ _ Hall).
  - intros n.
    pose proof (monitor_loop_inv service_id config (take n readings)
                  initial_debounce reg initial_debounce_inv) as Hinv.
    split; [exact Hinv | by apply down_guard_unsat].
Qed.

(** *** Runs on given readings *)

(** C1: on the readings online, offline, offline the third cycle is the
    second consecutive non-online reading after an online status, which is
    where the down alert is due; the loop sends no down alert in that cycle. *)
Theorem down_alert_missing_at_second_failure
    (service_id : string) (config : ServiceConfig)
    (reg : gmap string ServiceStatus) :
  second_failure_after_online
    (statuses_of (map reading_of [online; offline; offline])) 2 = true
  /\ down_alert_at
       (trace_of (monitor_service service_id config
                    (map reading_of [online; offline; offline]) reg)) 2
     = false
  /\ ~ (forall (readings : list Reading) (i : nat),
          down_alert_at
            (trace_of (monitor_service service_id config readings reg)) i = true
          <-> second_failure_after_online (statuses_of readings) i = true).
Proof.
  split; [reflexivity | split; [reflexivity |]].
  intros Hiff.
  specialize (Hiff (map reading_of [online; offline; offline]) 2%nat).
  destruct Hiff as [_ Hiff]. specialize (Hiff eq_refl). discriminate Hiff.
Qed.

(** C2: on the readings online, offline, offline the loop sends no down
    alert (the cycle of the second offline reading only sleeps), and the
    entry of the service in the registry after the last cycle holds the
    status offline with the elapsed time, detail and time stamp of the last
    reading. *)
Theorem run_online_offline_offline
    (service_id : string) (config : ServiceConfig)
    (reg : gmap string ServiceStatus)
    (d1 d2 d3 : Z) (e1 e2 e3 ts1 ts2 ts3 : string) :
  trace_of (monitor_service service_id config
              [mk_reading online d1 e1 ts1; mk_reading offline d2 e2 ts2;
               mk_reading offline d3 e3 ts3] reg)
  = [[Sleep (interval config)]; [Sleep (interval config)];
     [Sleep (interval config)]]
  /\ count_down_alerts
       (trace_of (monitor_service service_id config
                    [mk_reading online d1 e1 ts1; mk_reading offline d2 e2 ts2;
                     mk_reading offline d3 e3 ts3] reg))
     = 0%nat
  /\ registry_of (monitor_service service_id config
                    [mk_reading online d1 e1 ts1; mk_reading offline d2 e2 ts2;
                     mk_reading offline d3 e3 ts3] reg) !! service_id
     = Some {| ss_name := name config;
               ss_url := url config;
               ss_status := offline;
               ss_last_check := ts3;
               ss_response_time := d3;
               ss_error_message := e3 |}.
Proof.
  split; [reflexivity | split; [reflexivity |]].
  unfold registry_of, monitor_service. cbn.
  apply lookup_insert_eq.
Qed.

(** C3: on the readings online, offline, offline, online the loop sends no
    down alert and exactly one recovery alert, in the cycle of the last
    reading. *)
Theorem run_online_offline_offline_online
    (service_id : string) (config : ServiceConfig)
    (reg : gmap string ServiceStatus)
    (d1 d2 d3 d4 : Z) (e1 e2 e3 e4 ts1 ts2 ts3 ts4 : string) :
  trace_of (monitor_service service_id config
              [mk_reading online d1 e1 ts1; mk_reading offline d2 e2 ts2;
               mk_reading offline d3 e3 ts3; mk_reading online d4 e4 ts4] reg)
  = [[Sleep (interval config)]; [Sleep (interval config)];
     [Sleep (interval config)];
     [Alert (name config) online "Serviço recuperado ✅"; Sleep (interval config)]]
  /\ count_down_alerts
       (trace_of (monitor_service service_id config
                    [mk_reading online d1 e1 ts1; mk_reading offline d2 e2 ts2;
                     mk_reading offline d3 e3 ts3; mk_reading online d4 e4 ts4]
                    reg))
     = 0%nat
  /\ count_recovery_alerts
       (trace_of (monitor_service service_id config
                    [mk_reading online d1 e1 ts1; mk_reading offline d2 e2 ts2;
                     mk_reading offline d3 e3 ts3; mk_reading online d4 e4 ts4]
                    reg))
     = 1%nat
  /\ recovery_alert_at
       (trace_of (monitor_service service_id config
                    [mk_reading online d1 e1 ts1; mk_reading offline d2 e2 ts2;
                     mk_reading offline d3 e3 ts3; mk_reading online d4 e4 ts4]
                    reg)) 3
     = true.
Proof. repeat split. Qed.

(** C10: there are readings, namely online, offline, offline, online from the
    initial state, on which the loop sends a recovery alert although it has
    sent no down alert before it. *)
Theorem recovery_alert_without_down_alert :
  exists readings : list Reading,
    statuses_of readings = [online; offline; offline; online]
    /\ forall (service_id : string) (config : ServiceConfig)
              (reg : gmap string ServiceStatus),
         recovery_alert_at
           (trace_of (monitor_service service_id config readings reg)) 3 = true
         /\ count_recovery_alerts
              (trace_of (monitor_service service_id config readings reg)) = 1%nat
         /\ count_down_alerts
              (trace_of (monitor_service service_id config readings reg)) = 0%nat
         /\ forall i,
              down_alert_at
                (trace_of (monitor_service service_id config readings reg)) i
              = false.
Proof.
  exists (map reading_of [online; offline; offline; online]).
  split; [reflexivity|]. intros service_id config reg.
  split; [reflexivity | split; [reflexivity | split; [reflexivity|]]].
  intros i. unfold down_alert_at.
  destruct (_ !! i) as [cs|] eqn:Hi; [|done].
  exact (Forall_lookup_1 _ _ _ _
           (monitor_loop_no_down_alert service_id config _ initial_debounce reg
              initial_debounce_inv) Hi).
Qed.

(** ** The manual check *)

Example task_cycle_writes :
  service_status
    (task_cycle "backend" {| name := "Backend API"; url := "u"; interval := 60 |}
       (mk_reading offline 4 "Erro de conexão - Serviço offline" "t1")
       startup_event).2 !! "backend"
  = Some {| ss_name := "Backend API"; ss_url := "u"; ss_status := offline;
            ss_last_check := "t1"; ss_response_time := 4;
            ss_error_message := "Erro de conexão - Serviço offline" |}
  /\ monitors
       (task_cycle "backend" {| name := "Backend API"; url := "u"; interval := 60 |}
          (mk_reading offline 4 "Erro de conexão - Serviço offline" "t1")
          startup_event).2 !! "backend"
     = Some {| previous_status := offline; consecutive_failures := 1 |}.
Proof. split; reflexivity. Qed.

(** C8: [force_check] leaves the registry and the local variables of every
    monitor task as they were, for every service id and whatever the probe
    does; for an id that is not a key of [SERVICES] it answers 404 with the
    not-found error, without probing. *)
Theorem force_check_unknown_and_pure
    (service_id : string) (start_time end_time : Z)
    (get : string -> http_outcome) (s : app_state) :
  (force_check service_id start_time get end_time s).2 = s
  /\ service_status (force_check service_id start_time get end_time s).2
     = service_status s
  /\ monitors (force_check service_id start_time get end_time s).2 = monitors s
  /\ (SERVICES !! service_id = None ->
      (force_check service_id start_time get end_time s).1
      = Return (JSONResponse 404 "Serviço não encontrado")).
Proof.
  unfold force_check.
  destruct (SERVICES !! service_id) as [config|] eqn:Hid; simpl.
  - repeat split; try reflexivity. discriminate.
  - repeat split; reflexivity.
Qed.

Lemma force_check_unknown_and_pure_witness :
  (force_check "billing" 0 (fun _ => Responded 200 "") 1 startup_event).1
  = Return (JSONResponse 404 "Serviço não encontrado").
Proof.
  apply (force_check_unknown_and_pure "billing" 0 1
           (fun _ => Responded 200 "") startup_event).
  reflexivity.
Defined.

(** For a configured id the answer is the raw result of one probe. *)
Lemma force_check_known (service_id : string) (config : ServiceConfig)
    (start_time end_time : Z) (get : string -> http_outcome) (s : app_state)
    (r : ProbeResult) :
  SERVICES !! service_id = Some config ->
  check_service service_id config start_time get end_time = Return r ->
  force_check service_id start_time get end_time s
  = (Return (CheckReply (name config) r), s).
Proof. intros Hid Hr. unfold force_check. by rewrite Hid, Hr. Qed.

(** * Further properties *)

(** ** The probe, by outcome *)

(** X1: A result the probe returns has an empty detail exactly when it is
    online; it is offline exactly when the attempt raised, and error exactly
    when the server answered with a code other than 200. *)
Theorem check_service_classification
    (service_id : string) (config : ServiceConfig) (start_time end_time : Z)
    (get : string -> http_outcome) (r : ProbeResult) :
  check_service service_id config start_time get end_time = Return r ->
  (error_message r = "" <-> status_of r = online)
  /\ (status_of r = offline <->
      exists e, get (url config) = Failed e /\ is_Exception e = true)
  /\ (status_of r = error <->
      exists code text, get (url config) = Responded code text /\ code <> 200).
Proof.
  unfold check_service, is_Exception.
  destruct (get (url config)) as [code text | e] eqn:Hget.
  - case_bool_decide as Hcode; intros [= <-]; simpl.
    + split; [done|]. split; split; try done.
      * intros (e & [=] & _).
      * intros (code' & text' & [= <- <-] & Hne). contradiction.
    + split; [split; discriminate|]. split; split; try done.
      * intros (e & [=] & _).
      * intros _. by exists code, text.
  - destruct (exc_cls e) eqn:Hcls; intros [= <-]; simpl.
    all: split; [split; discriminate|].
    all: split; split; try done.
    all: try (intros _; exists e; by rewrite Hcls).
    all: intros (code & text & [=] & _).
Qed.

Lemma check_service_classification_witness :
  ((error_message {| status_of := error; response_time := 2;
                     error_message := "HTTP 503" |} = ""
    <-> status_of {| status_of := error; response_time := 2;
                     error_message := "HTTP 503" |} = online)
   /\ (status_of {| status_of := error; response_time := 2;
                    error_message := "HTTP 503" |} = offline <->
       exists e, Responded 503 "down" = Failed e /\ is_Exception e = true)
   /\ (status_of {| status_of := error; response_time := 2;
                    error_message := "HTTP 503" |} = error <->
       exists code text,
         Responded 503 "down" = Responded code text /\ code <> 200)).
Proof.
  apply (check_service_classification "backend"
           {| name := "Backend API";
              url := "https://api.dev.julgadosbr.com.br/health";
              interval := 60 |}
           1 3 (fun _ => Responded 503 "down")).
  reflexivity.
Defined.

Lemma check_service_raises_aux
    (service_id : string) (config : ServiceConfig) (start_time end_time : Z)
    (get : string -> http_outcome) (e : pyexc) :
  check_service service_id config start_time get end_time = Raise e ->
  get (url config) = Failed e /\ is_Exception e = false.
Proof.
  unfold check_service, is_Exception.
  destruct (get (url config)) as [code text | e'].
  - by case_bool_decide.
  - destruct (exc_cls e') eqn:Hcls; try done.
    intros [= <-]. by rewrite Hcls.
Qed.

(** X2: The probe raises exactly when the attempt raised something that is not an
    [Exception], and then it raises that same thing. *)
Theorem check_service_raises_iff
    (service_id : string) (config : ServiceConfig) (start_time end_time : Z)
    (get : string -> http_outcome) (e : pyexc) :
  check_service service_id config start_time get end_time = Raise e
  <-> get (url config) = Failed e /\ is_Exception e = false.
Proof.
  split; [apply check_service_raises_aux|].
  unfold check_service, is_Exception.
  intros [-> He]. by destruct (exc_cls e).
Qed.

(** X3: The detail of a non-200 answer carries the status code without loss: two
    answered probes with codes other than 200 that report the same detail
    were answered with the same code. *)
Theorem check_service_detail_determines_code
    (service_id service_id' : string) (config config' : ServiceConfig)
    (t0 t1 t0' t1' : Z) (get get' : string -> http_outcome)
    (code code' : Z) (text text' : string) (r r' : ProbeResult) :
  get (url config) = Responded code text ->
  get' (url config') = Responded code' text' ->
  code <> 200 -> code' <> 200 ->
  check_service service_id config t0 get t1 = Return r ->
  check_service service_id' config' t0' get' t1' = Return r' ->
  error_message r = error_message r' -> code = code'.
Proof.
  intros Hget Hget' Hc Hc'. unfold check_service. rewrite Hget, Hget'.
  rewrite !bool_decide_eq_false_2 by done.
  intros [= <-] [= <-]. simpl. apply http_detail_inj.
Qed.

Lemma check_service_detail_determines_code_witness : 502 = 502.
Proof.
  apply (check_service_detail_determines_code "backend" "frontend_dev"
           {| name := "Backend API";
              url := "https://api.dev.julgadosbr.com.br/health"; interval := 60 |}
           {| name := "Frontend Dev";
              url := "https://dev.julgadosbr.com.br/health"; interval := 60 |}
           0 2 5 9 (fun _ => Responded 502 "bad gateway")
           (fun _ => Responded 502 "") 502 502 "bad gateway" ""
           {| status_of := error; response_time := 2; error_message := "HTTP 502" |}
           {| status_of := error; response_time := 4; error_message := "HTTP 502" |});
    (reflexivity || discriminate).
Defined.

(** ** The notifier, by outcome *)

(** X4: The notifier returns true exactly when the three credentials are set and
    the POST it built was answered with 200 or 201. *)
Theorem send_whatsapp_evolution_true_iff
    (cfg : Settings) (post : PostRequest -> http_outcome) (message : string) :
  send_whatsapp_evolution cfg post message = Return true
  <-> EVOLUTION_API_URL cfg <> "" /\ EVOLUTION_API_KEY cfg <> ""
      /\ WHATSAPP_PHONE cfg <> ""
      /\ exists code text,
           post (evolution_request cfg message) = Responded code text
           /\ (code = 201 \/ code = 200).
Proof.
  unfold send_whatsapp_evolution, truthy. split.
  - repeat case_bool_decide; simpl; try discriminate.
    destruct (post _) as [code text | e].
    + repeat case_bool_decide; simpl; try discriminate; intros _;
        repeat split; try done; exists code, text; auto.
    + by destruct (is_Exception e).
  - intros (Hu & Hk & Hp & code & text & -> & Hcode).
    rewrite !bool_decide_eq_false_2 by done. simpl.
    destruct Hcode as [-> | ->]; reflexivity.
Qed.

(** X5: The notifier raises exactly when the three credentials are set and the
    POST raised something that is not an [Exception]; with a credential
    missing it raises nothing, whatever the transport would do. *)
Theorem send_whatsapp_evolution_raises_iff
    (cfg : Settings) (post : PostRequest -> http_outcome) (message : string)
    (e : pyexc) :
  send_whatsapp_evolution cfg post message = Raise e
  <-> EVOLUTION_API_URL cfg <> "" /\ EVOLUTION_API_KEY cfg <> ""
      /\ WHATSAPP_PHONE cfg <> ""
      /\ post (evolution_request cfg message) = Failed e
      /\ is_Exception e = false.
Proof.
  unfold send_whatsapp_evolution, truthy. split.
  - repeat case_bool_decide; simpl; try discriminate.
    destruct (post _) as [code text | e'].
    + by destruct (_ || _).
    + destruct (is_Exception e') eqn:He'; [discriminate|].
      by intros [= <-].
  - intros (Hu & Hk & Hp & -> & ->).
    by rewrite !bool_decide_eq_false_2 by done.
Qed.

Lemma send_whatsapp_alert_returns_witness :
  send_whatsapp_alert example_settings
    (fun _ => Failed (PyExc TimeoutException "timed out"))
    "03/11/2026 09:18:00" "Backend API" offline
    "Erro de conexão - Serviço offline"
  = Return tt.
Proof.
  apply (send_whatsapp_alert_returns example_settings
           (fun _ => Failed (PyExc TimeoutException "timed out"))).
  intros req e [= <-]. reflexivity.
Defined.

(** X7: The test endpoint answers with the fixed text, the configured phone
    number and the boolean of the delivery, which is true exactly when the
    credentials are set and the POST of the test text was answered with 200
    or 201; a delivery that fails with an exception does not make it fail. *)
Theorem test_alert_reports
    (cfg : Settings) (post : PostRequest -> http_outcome) :
  (forall e, post (evolution_request cfg test_alert_text) = Failed e ->
             is_Exception e = true) ->
  exists success : bool,
    test_alert cfg post
    = Return {| ta_message := "Teste enviado";
                ta_success := success;
                ta_phone := WHATSAPP_PHONE cfg |}
    /\ (success = true <->
        EVOLUTION_API_URL cfg <> "" /\ EVOLUTION_API_KEY cfg <> ""
        /\ WHATSAPP_PHONE cfg <> ""
        /\ exists code text,
             post (evolution_request cfg test_alert_text) = Responded code text
             /\ (code = 201 \/ code = 200)).
Proof.
  intros Hexc. unfold test_alert, send_whatsapp_evolution, truthy.
  repeat case_bool_decide; simpl.
  all: try (exists false; split; [reflexivity|]; split; [discriminate|];
            intros (? & ? & ? & _); done).
  destruct (post _) as [code text | e] eqn:Hpost.
  - repeat case_bool_decide; simpl.
    all: eexists; (split; [reflexivity|]).
    1-3: split; [intros _; repeat split; try done; exists code, text; auto
                | done].
    split; [discriminate|].
    intros (_ & _ & _ & code' & text' & [= <- <-] & [?|?]); done.
  - rewrite (Hexc e eq_refl). exists false. split; [reflexivity|].
    split; [discriminate|]. intros (_ & _ & _ & code & text & [=] & _).
Qed.

Lemma test_alert_reports_witness :
  exists success : bool,
    test_alert example_settings (fun _ => Responded 201 "")
    = Return {| ta_message := "Teste enviado";
                ta_success := success;
                ta_phone := WHATSAPP_PHONE example_settings |}
    /\ (success = true <->
        EVOLUTION_API_URL example_settings <> ""
        /\ EVOLUTION_API_KEY example_settings <> ""
        /\ WHATSAPP_PHONE example_settings <> ""
        /\ exists code text,
             Responded 201 "" = Responded code text
             /\ (code = 201 \/ code = 200)).
Proof.
  apply (test_alert_reports example_settings (fun _ => Responded 201 "")).
  intros e [=].
Defined.

(** ** The monitoring loop, cycle by cycle *)

Lemma monitor_loop_app (service_id : string) (config : ServiceConfig)
    (l1 l2 : list Reading) (st : debounce) (reg : gmap string ServiceStatus) :
  monitor_loop service_id config (l1 ++ l2) st reg
  = ((trace_of (monitor_loop service_id config l1 st reg)
      ++ trace_of (monitor_loop service_id config l2
                     (locals_of (monitor_loop service_id config l1 st reg))
                     (registry_of (monitor_loop service_id config l1 st reg))))%list,
     locals_of (monitor_loop service_id config l2
                  (locals_of (monitor_loop service_id config l1 st reg))
                  (registry_of (monitor_loop service_id config l1 st reg))),
     registry_of (monitor_loop service_id config l2
                    (locals_of (monitor_loop service_id config l1 st reg))
                    (registry_of (monitor_loop service_id config l1 st reg)))).
Proof.
  revert st reg. induction l1 as [|r l1 IH]; intros st reg.
  - simpl. by destruct (monitor_loop _ _ l2 _ _) as [[? ?] ?].
  - rewrite <- app_comm_cons, !monitor_loop_cons. cbv zeta.
    rewrite IH. reflexivity.
Qed.

Lemma monitor_loop_snoc_locals (service_id : string) (config : ServiceConfig)
    (l : list Reading) (r : Reading) (st : debounce)
    (reg : gmap string ServiceStatus) :
  locals_of (monitor_loop service_id config (l ++ [r]) st reg)
  = locals (monitor_cycle service_id config
              (locals_of (monitor_loop service_id config l st reg))
              (registry_of (monitor_loop service_id config l st reg)) r).
Proof. rewrite monitor_loop_app. reflexivity. Qed.

Lemma monitor_loop_trace_length (service_id : string) (config : ServiceConfig)
    (readings : list Reading) (st : debounce) (reg : gmap string ServiceStatus) :
  length (trace_of (monitor_loop service_id config readings st reg))
  = length readings.
Proof.
  revert st reg. induction readings as [|r rest IH]; intros st reg; [done|].
  rewrite monitor_loop_cons. cbv zeta. unfold trace_of at 1. simpl.
  by rewrite IH.
Qed.

(** The calls of cycle [i] are those of the loop body run on reading [i] from
    the state the first [i] cycles leave. *)
Lemma monitor_loop_trace_lookup (service_id : string) (config : ServiceConfig)
    (readings : list Reading) (st : debounce) (reg : gmap string ServiceStatus)
    (i : nat) :
  trace_of (monitor_loop service_id config readings st reg) !! i
  = (fun r =>
       calls (monitor_cycle service_id config
                (locals_of (monitor_loop service_id config (take i readings) st reg))
                (registry_of (monitor_loop service_id config (take i readings) st reg))
                r)) <$> readings !! i.
Proof.
  revert st reg i. induction readings as [|r rest IH]; intros st reg i.
  - by destruct i.
  - rewrite monitor_loop_cons. cbv zeta. destruct i as [|i].
    + reflexivity.
    + unfold trace_of at 1. simpl fst. rewrite lookup_cons. simpl take.
      rewrite monitor_loop_cons. cbv zeta. apply IH.
Qed.


Lemma trailing_failures_snoc (l : list status) (st : status) :
  trailing_failures (l ++ [st])
  = if bool_decide (st ≠ online) then S (trailing_failures l) else 0%nat.
Proof. unfold trailing_failures. by rewrite reverse_snoc. Qed.

Lemma statuses_of_snoc (l : list Reading) (r : Reading) :
  statuses_of (l ++ [r]) = (statuses_of l ++ [status_of (result r)])%list.
Proof. unfold statuses_of. by rewrite map_app. Qed.

Lemma monitor_loop_locals (service_id : string) (config : ServiceConfig)
    (readings : list Reading) (reg : gmap string ServiceStatus) :
  previous_status
    (locals_of (monitor_loop service_id config readings initial_debounce reg))
  = default online (last (statuses_of readings))
  /\ consecutive_failures
       (locals_of (monitor_loop service_id config readings initial_debounce reg))
     = trailing_failures (statuses_of readings).
Proof.
  induction readings as [|r l IH] using rev_ind; [done|].
  rewrite monitor_loop_snoc_locals, statuses_of_snoc, last_snoc,
    trailing_failures_snoc.
  destruct IH as [_ IHc]. unfold monitor_cycle.
  case_bool_decide; simpl; [by rewrite IHc | done].
Qed.

(** X9: After any run from the initial state the previous status is the status of
    the last reading (["online"] before the first), and the count is the
    number of readings other than online at the end of the run. *)
Theorem monitor_service_locals (service_id : string) (config : ServiceConfig)
    (readings : list Reading) (reg : gmap string ServiceStatus) :
  previous_status (locals_of (monitor_service service_id config readings reg))
  = default online (last (statuses_of readings))
  /\ consecutive_failures
       (locals_of (monitor_service service_id config readings reg))
     = trailing_failures (statuses_of readings).
Proof. apply monitor_loop_locals. Qed.

(** *** When the recovery alert is sent *)

(** One cycle from any state: the recovery alert is among its calls exactly
    when the reading is online, the previous status is not, and at least two
    failures have been counted. *)
Lemma monitor_cycle_recovery (service_id : string) (config : ServiceConfig)
    (st : debounce) (reg : gmap string ServiceStatus) (r : Reading) :
  existsb is_recovery_alert (calls (monitor_cycle service_id config st reg r))
  = true
  <-> status_of (result r) = online /\ previous_status st ≠ online
      /\ (2 ≤ consecutive_failures st)%nat.
Proof.
  unfold monitor_cycle, recovery_guard.
  case_bool_decide as Hst; simpl.
  - split; [|by intros [? _]].
    destruct (down_guard _ _); simpl; [|done].
    by rewrite (bool_decide_eq_false_2 _ Hst).
  - assert (status_of (result r) = online) as Hon
        by (by destruct (status_of (result r))).
    repeat case_bool_decide; simpl; split; try done; intros (_ & ? & ?); done.
Qed.

(** Under the invariant a cycle calls nothing but the sleep, preceded by the
    recovery alert when the reading is online after two failures or more. *)
Lemma monitor_cycle_calls (service_id : string) (config : ServiceConfig)
    (st : debounce) (reg : gmap string ServiceStatus) (r : Reading) :
  debounce_inv st ->
  calls (monitor_cycle service_id config st reg r)
  = if bool_decide (status_of (result r) = online
                    /\ (2 ≤ consecutive_failures st)%nat)
    then [Alert (name config) online "Serviço recuperado ✅";
          Sleep (interval config)]
    else [Sleep (interval config)].
Proof.
  intros Hinv. unfold monitor_cycle. case_bool_decide as Hst; simpl.
  - rewrite (down_guard_unsat st Hinv).
    rewrite bool_decide_eq_false_2; [done | by intros [? _]].
  - assert (status_of (result r) = online) as Hon
        by (by destruct (status_of (result r))).
    unfold recovery_guard. destruct Hinv as [Hinv _].
    destruct (decide (2 ≤ consecutive_failures st)%nat) as [Hge|Hlt].
    + rewrite (bool_decide_eq_true_2 _ Hge), andb_true_r.
      rewrite bool_decide_eq_true_2 by (intros Hp; apply Hinv in Hp; lia).
      by rewrite bool_decide_eq_true_2.
    + rewrite (bool_decide_eq_false_2 _ Hlt), andb_false_r.
      rewrite bool_decide_eq_false_2; [done | by intros [_ ?]].
Qed.

Lemma statuses_of_lookup (readings : list Reading) (i : nat) :
  statuses_of readings !! i = (fun r => status_of (result r)) <$> readings !! i.
Proof. unfold statuses_of. apply list_lookup_fmap. Qed.

Lemma statuses_of_take (readings : list Reading) (n : nat) :
  statuses_of (take n readings) = take n (statuses_of readings).
Proof. unfold statuses_of. by rewrite <- fmap_take. Qed.

(** At least two failures end the first [i] statuses exactly when statuses
    [i-2] and [i-1] exist and are not online. *)
Lemma trailing_failures_take_ge_2 (statuses : list status) (i : nat) :
  (i ≤ length statuses)%nat ->
  (2 ≤ trailing_failures (take i statuses))%nat
  <-> exists j, i = S (S j) /\ non_online_at statuses j = true
                /\ non_online_at statuses (S j) = true.
Proof.
  intros Hi. unfold non_online_at.
  destruct i as [|[|j]].
  - split; [vm_compute; lia | by intros (j & [=] & _)].
  - destruct (lookup_lt_is_Some_2 statuses 0%nat ltac:(lia)) as [x Hx].
    rewrite (take_S_r _ _ _ Hx), trailing_failures_snoc. simpl take.
    split; [case_bool_decide; vm_compute; lia | by intros (j & [=] & _)].
  - destruct (lookup_lt_is_Some_2 statuses (S j) ltac:(lia)) as [y Hy].
    destruct (lookup_lt_is_Some_2 statuses j ltac:(lia)) as [x Hx].
    rewrite (take_S_r _ _ _ Hy), trailing_failures_snoc.
    rewrite (take_S_r _ _ _ Hx), trailing_failures_snoc.
    split.
    + intros Hge. exists j. rewrite Hx, Hy.
      repeat case_bool_decide; (done || lia).
    + intros (j' & [= <-] & Hj & HSj). rewrite Hx in Hj. rewrite Hy in HSj.
      rewrite Hj, HSj. lia.
Qed.

(** X10: From the initial state, the recovery alert is sent in cycle [i] exactly
    when reading [i] is online and the two readings before it both exist and
    are not online. *)
Theorem recovery_alert_iff (service_id : string) (config : ServiceConfig)
    (readings : list Reading) (reg : gmap string ServiceStatus) (i : nat) :
  recovery_alert_at
    (trace_of (monitor_service service_id config readings reg)) i = true
  <-> exists j, i = S (S j)
                /\ non_online_at (statuses_of readings) j = true
                /\ non_online_at (statuses_of readings) (S j) = true
                /\ online_at (statuses_of readings) i = true.
Proof.
  unfold recovery_alert_at, monitor_service. rewrite monitor_loop_trace_lookup.
  unfold online_at at 1. rewrite statuses_of_lookup.
  destruct (readings !! i) as [r|] eqn:Hr; simpl.
  - rewrite monitor_cycle_recovery.
    pose proof (monitor_loop_locals service_id config (take i readings) reg)
      as [_ Hcf].
    pose proof (monitor_loop_inv service_id config (take i readings)
                  initial_debounce reg initial_debounce_inv) as [Hinv _].
    rewrite Hcf, statuses_of_take.
    assert (i ≤ length (statuses_of readings))%nat as Hlen.
    { unfold statuses_of. rewrite length_map.
      apply lookup_lt_Some in Hr. lia. }
    rewrite (trailing_failures_take_ge_2 _ _ Hlen).
    split.
    + intros (Hon & _ & j & -> & Hj & HSj). exists j.
      by rewrite bool_decide_eq_true.
    + intros (j & -> & Hj & HSj & Hon). apply bool_decide_eq_true in Hon.
      split; [done|]. split; [|by exists j].
      intros Hp. apply Hinv in Hp. rewrite Hcf, statuses_of_take in Hp.
      assert (2 ≤ trailing_failures (take (S (S j)) (statuses_of readings)))%nat
        by (apply trailing_failures_take_ge_2; [done | by exists j]).
      lia.
  - split; [done | by intros (j & _ & _ & _ & ?)].
Qed.

(** *** The shape of a run *)

Lemma monitor_loop_prefix_inv (service_id : string) (config : ServiceConfig)
    (readings : list Reading) (reg : gmap string ServiceStatus) (i : nat) :
  debounce_inv
    (locals_of (monitor_loop service_id config (take i readings)
                  initial_debounce reg)).
Proof. apply monitor_loop_inv, initial_debounce_inv. Qed.

(** X11: From the initial state there is one cycle per reading, and every cycle
    calls either the sleep alone or the recovery alert followed by the sleep:
    at most one alert per cycle, always for the monitored service, and one
    sleep of the configured interval at the end. *)
Theorem monitor_service_cycle_shape
    (service_id : string) (config : ServiceConfig) (readings : list Reading)
    (reg : gmap string ServiceStatus) :
  length (trace_of (monitor_service service_id config readings reg))
  = length readings
  /\ forall i cs,
       trace_of (monitor_service service_id config readings reg) !! i = Some cs ->
       cs = [Sleep (interval config)]
       \/ cs = [Alert (name config) online "Serviço recuperado ✅";
                Sleep (interval config)].
Proof.
  unfold monitor_service. split; [apply monitor_loop_trace_length|].
  intros i cs. rewrite monitor_loop_trace_lookup.
  destruct (readings !! i) as [r|]; [|done]. simpl. intros [= <-].
  rewrite monitor_cycle_calls by apply monitor_loop_prefix_inv.
  case_bool_decide; auto.
Qed.

(** X12: When no two readings in a row are other than online, the loop sends
    nothing at all: every cycle only sleeps. *)
Theorem isolated_failures_are_silent
    (service_id : string) (config : ServiceConfig) (readings : list Reading)
    (reg : gmap string ServiceStatus) :
  (forall i, non_online_at (statuses_of readings) i = true ->
             non_online_at (statuses_of readings) (S i) = false) ->
  trace_of (monitor_service service_id config readings reg)
  = replicate (length readings) [Sleep (interval config)].
Proof.
  intros Hiso. unfold monitor_service. apply list_eq. intros i.
  rewrite monitor_loop_trace_lookup.
  destruct (readings !! i) as [r|] eqn:Hr; simpl.
  - rewrite lookup_replicate_2 by (by apply lookup_lt_Some in Hr).
    rewrite monitor_cycle_calls by apply monitor_loop_prefix_inv.
    rewrite bool_decide_eq_false_2; [done|]. intros [_ Hge].
    pose proof (monitor_loop_locals service_id config (take i readings) reg)
      as [_ Hcf].
    rewrite Hcf, statuses_of_take in Hge.
    apply trailing_failures_take_ge_2 in Hge.
    + destruct Hge as (j & _ & Hj & HSj). rewrite (Hiso j Hj) in HSj. done.
    + unfold statuses_of. rewrite length_map. apply lookup_lt_Some in Hr. lia.
  - symmetry. apply lookup_replicate_None. by apply lookup_ge_None in Hr.
Qed.

Lemma isolated_failures_are_silent_witness :
  trace_of (monitor_service "backend"
              {| name := "Backend API";
                 url := "https://api.dev.julgadosbr.com.br/health";
                 interval := 60 |}
              (map reading_of [offline; online; error; online; online; offline])
              ∅)
  = replicate 6 [Sleep 60].
Proof.
  apply (isolated_failures_are_silent "backend"
           {| name := "Backend API";
              url := "https://api.dev.julgadosbr.com.br/health";
              interval := 60 |}
           (map reading_of [offline; online; error; online; online; offline]) ∅).
  intros [|[|[|[|[|[|i]]]]]]; vm_compute; congruence.
Defined.

(** *** The registry after a run *)

Lemma monitor_cycle_registry (service_id : string) (config : ServiceConfig)
    (st : debounce) (reg : gmap string ServiceStatus) (r : Reading) :
  registry (monitor_cycle service_id config st reg r)
  = <[service_id := entry_of config r]> reg.
Proof. unfold monitor_cycle. by case_bool_decide. Qed.

Lemma monitor_loop_registry (service_id : string) (config : ServiceConfig)
    (readings : list Reading) (st : debounce) (reg : gmap string ServiceStatus) :
  registry_of (monitor_loop service_id config readings st reg)
  = match last readings with
    | Some r => <[service_id := entry_of config r]> reg
    | None => reg
    end.
Proof.
  revert st reg. induction readings as [|r rest IH]; intros st reg; [done|].
  rewrite monitor_loop_cons. cbv zeta. unfold registry_of at 1. simpl snd.
  rewrite IH, last_cons, monitor_cycle_registry.
  destruct (last rest) as [r'|]; [apply insert_insert_eq | reflexivity].
Qed.

(** X13: A run changes the registry by one entry only, and keeps no history: the
    registry at the end is the one at the start with the entry of the service
    set from the last reading (and is unchanged when there was no reading).
    The entries of the other services are untouched. *)
Theorem monitor_service_registry
    (service_id : string) (config : ServiceConfig) (readings : list Reading)
    (reg : gmap string ServiceStatus) :
  registry_of (monitor_service service_id config readings reg)
  = match last readings with
    | Some r => <[service_id := entry_of config r]> reg
    | None => reg
    end
  /\ forall other,
       other ≠ service_id ->
       registry_of (monitor_service service_id config readings reg) !! other
       = reg !! other.
Proof.
  unfold monitor_service. rewrite monitor_loop_registry. split; [done|].
  intros other Hne. destruct (last readings); [|done].
  by rewrite lookup_insert_ne.
Qed.

(** ** The application *)

(** What a cycle calls and leaves in the local variables does not depend on
    the registry. *)
Lemma monitor_cycle_registry_irrelevant
    (service_id : string) (config : ServiceConfig) (st : debounce)
    (reg reg' : gmap string ServiceStatus) (r : Reading) :
  calls (monitor_cycle service_id config st reg r)
  = calls (monitor_cycle service_id config st reg' r)
  /\ locals (monitor_cycle service_id config st reg r)
     = locals (monitor_cycle service_id config st reg' r).
Proof. unfold monitor_cycle. by case_bool_decide. Qed.


(** X14: The tasks of two different services do not interfere: a cycle of each,
    in either order, leaves the same registry and local variables, and each
    task makes the calls it would have made alone. *)
Theorem task_cycles_commute
    (a b : string) (config_a config_b : ServiceConfig) (ra rb : Reading)
    (s : app_state) :
  a ≠ b ->
  (task_cycle b config_b rb (task_cycle a config_a ra s).2).2
  = (task_cycle a config_a ra (task_cycle b config_b rb s).2).2
  /\ (task_cycle b config_b rb (task_cycle a config_a ra s).2).1
     = (task_cycle b config_b rb s).1
  /\ (task_cycle a config_a ra (task_cycle b config_b rb s).2).1
     = (task_cycle a config_a ra s).1.
Proof.
  intros Hne. unfold task_cycle.
  destruct (monitors s !! a) as [sta|] eqn:Ha;
    destruct (monitors s !! b) as [stb|] eqn:Hb; simpl;
    rewrite ?lookup_insert_ne, ?Ha, ?Hb by done; simpl; try done.
  rewrite !monitor_cycle_registry.
  destruct (monitor_cycle_registry_irrelevant b config_b stb
              (<[a:=entry_of config_a ra]> (service_status s))
              (service_status s) rb) as [-> ->].
  destruct (monitor_cycle_registry_irrelevant a config_a sta
              (<[b:=entry_of config_b rb]> (service_status s))
              (service_status s) ra) as [-> ->].
  repeat split. f_equal; by apply insert_insert_ne.
Qed.

Lemma task_cycles_commute_witness :
  (task_cycle "frontend_dev"
     {| name := "Frontend Dev"; url := "https://dev.julgadosbr.com.br/health";
        interval := 60 |}
     (reading_of online)
     (task_cycle "backend"
        {| name := "Backend API"; url := "https://api.dev.julgadosbr.com.br/health";
           interval := 60 |}
        (reading_of offline) startup_event).2).2
  = (task_cycle "backend"
       {| name := "Backend API"; url := "https://api.dev.julgadosbr.com.br/health";
          interval := 60 |}
       (reading_of offline)
       (task_cycle "frontend_dev"
          {| name := "Frontend Dev"; url := "https://dev.julgadosbr.com.br/health";
             interval := 60 |}
          (reading_of online) startup_event).2).2.
Proof.
  apply (task_cycles_commute "backend" "frontend_dev"
           {| name := "Backend API";
              url := "https://api.dev.julgadosbr.com.br/health"; interval := 60 |}
           {| name := "Frontend Dev";
              url := "https://dev.julgadosbr.com.br/health"; interval := 60 |}
           (reading_of offline) (reading_of online) startup_event).
  discriminate.
Defined.




(** *** What every state of the application satisfies *)







(** *** The handlers *)

(** X17: The manual check answers with a [JSONResponse] exactly when the id is not
    a key of [SERVICES]; the code is then 404. *)
Theorem force_check_not_found_iff
    (service_id : string) (start_time end_time : Z)
    (get : string -> http_outcome) (s : app_state) :
  (exists code text,
     (force_check service_id start_time get end_time s).1
     = Return (JSONResponse code text))
  <-> SERVICES !! service_id = None
      /\ (force_check service_id start_time get end_time s).1
         = Return (JSONResponse 404 "Serviço não encontrado").
Proof.
  unfold force_check. destruct (SERVICES !! service_id) as [config|]; simpl.
  - split; [|by intros [? _]]. intros (code & text & H).
    destruct (check_service _ _ _ _ _); discriminate.
  - split; [done | intros _; by eexists _, _].
Qed.

(** X18: For a configured id the manual check probes the configured url once and
    answers with the configured name and the result of that probe, whatever
    the registry holds; a failing probe is an answer, not a failure. *)
Theorem force_check_configured
    (service_id : string) (config : ServiceConfig) (start_time end_time : Z)
    (get : string -> http_outcome) (s : app_state) :
  SERVICES !! service_id = Some config ->
  (forall e, get (url config) = Failed e -> is_Exception e = true) ->
  exists r,
    check_service service_id config start_time get end_time = Return r
    /\ force_check service_id start_time get end_time s
       = (Return (CheckReply (name config) r), s).
Proof.
  intros Hcfg Hexc. unfold force_check. rewrite Hcfg.
  destruct (check_service service_id config start_time get end_time)
    as [r|e] eqn:Hr.
  - by exists r.
  - apply check_service_raises_aux in Hr as [Hget He].
    by rewrite (Hexc e Hget) in He.
Qed.

Lemma force_check_configured_witness :
  exists r,
    check_service "frontend_prod"
      {| name := "Frontend Prod"; url := "https://julgadosbr.com.br/health";
         interval := 60 |}
      0 (fun _ => Failed (PyExc TimeoutException "read timeout")) 10
    = Return r
    /\ force_check "frontend_prod" 0
         (fun _ => Failed (PyExc TimeoutException "read timeout")) 10
         startup_event
       = (Return (CheckReply (name {| name := "Frontend Prod";
                                      url := "https://julgadosbr.com.br/health";
                                      interval := 60 |}) r),
          startup_event).
Proof.
  apply (force_check_configured "frontend_prod"
           {| name := "Frontend Prod"; url := "https://julgadosbr.com.br/health";
              interval := 60 |}
           0 10 (fun _ => Failed (PyExc TimeoutException "read timeout"))
           startup_event).
  - reflexivity.
  - intros e [= <-]. reflexivity.
Defined.

(** X19: What [get_status] serves after a cycle of a task: the entry of that
    service is the one built from the reading just taken, and the entries of
    the other services are as before. *)
Theorem get_status_after_task_cycle
    (service_id : string) (config : ServiceConfig) (r : Reading)
    (s : app_state) (st : debounce) (t t' : string) :
  monitors s !! service_id = Some st ->
  (get_status t' (task_cycle service_id config r s).2).2 !! service_id
  = Some (entry_of config r)
  /\ forall other,
       other ≠ service_id ->
       (get_status t' (task_cycle service_id config r s).2).2 !! other
       = (get_status t s).2 !! other.
Proof.
  intros Hst. unfold get_status, task_cycle. rewrite Hst. simpl.
  rewrite monitor_cycle_registry. split.
  - apply lookup_insert_eq.
  - intros other Hne. by apply lookup_insert_ne.
Qed.

Lemma get_status_after_task_cycle_witness :
  (get_status "t1"
     (task_cycle "backend"
        {| name := "Backend API"; url := "https://api.dev.julgadosbr.com.br/health";
           interval := 60 |}
        (mk_reading error 3 "HTTP 502" "t0") startup_event).2).2 !! "backend"
  = Some (entry_of
            {| name := "Backend API";
               url := "https://api.dev.julgadosbr.com.br/health";
               interval := 60 |}
            (mk_reading error 3 "HTTP 502" "t0")).
Proof.
  apply (get_status_after_task_cycle "backend"
           {| name := "Backend API";
              url := "https://api.dev.julgadosbr.com.br/health";
              interval := 60 |}
           (mk_reading error 3 "HTTP 502" "t0") startup_event
           initial_debounce "t0" "t1").
  reflexivity.
Defined.
